(** * app1.py: a Flask front end over a local llama.cpp model

    A shallow embedding of [src/app1.py]: the configuration read from the
    process environment, [load_llm_model], and the [/chatbot] handler
    [chatbot_api].  Python values, the builtins the file uses ([str.strip],
    [dict.get], indexing, [int]) and the part of the [llama_cpp] API it
    calls are modelled first; the program follows, written in a small
    state/trace/exception monad, with the import of the module and its
    script entry point; the theorems come last.  ([serve_html] only renders
    a template that is not part of the file and is left out.) *)

From Stdlib Require Import ZArith NArith String Ascii List PrimFloat DecimalString.
From Stdlib Require DecimalZ.
From stdpp Require Import base option gmap list.

Set Warnings "-register-all,-inexact-float".
#[local] Open Scope Z_scope.

(** ** Python values *)

Module Py.

(** A Python [str] is a sequence of Unicode code points. *)
Abbreviation str := (list N).

(** An ASCII literal of the source, as a [str]. *)
Definition lit (s : string) : str := map N_of_ascii (list_ascii_of_string s).

(** The one-character string "\n". *)
Definition nl : str := [10%N].

(** [str.isspace] on one code point: the white-space table of CPython
    ([_PyUnicode_IsWhitespace]). *)
Definition isspace (c : N) : bool :=
  ((9 <=? c) && (c <=? 13) || (28 <=? c) && (c <=? 32)
   || (c =? 133) || (c =? 160) || (c =? 5760)
   || (8192 <=? c) && (c <=? 8202)
   || (c =? 8232) || (c =? 8233) || (c =? 8239) || (c =? 8287)
   || (c =? 12288))%N.

Fixpoint lstrip (s : str) : str :=
  match s with
  | c :: s' => if isspace c then lstrip s' else s
  | [] => []
  end.

Definition rstrip (s : str) : str := rev (lstrip (rev s)).

(** [s.strip()] without argument. *)
Definition strip (s : str) : str := rstrip (lstrip s).

(** [str(n)] for an [int]. *)
Definition str_of_int (z : Z) : str := lit (NilZero.string_of_int (Z.to_int z)).

(** The values a JSON document parses to, which are also the values the
    engine's completion call returns. *)
Inductive pyval :=
| PNone
| PBool (b : bool)
| PInt (z : Z)
| PFloat (f : float)
| PStr (s : list N)
| PList (l : list pyval)
| PDict (d : gmap (list N) pyval).

Definition type_name (v : pyval) : str :=
  match v with
  | PNone => lit "NoneType"
  | PBool _ => lit "bool"
  | PInt _ => lit "int"
  | PFloat _ => lit "float"
  | PStr _ => lit "str"
  | PList _ => lit "list"
  | PDict _ => lit "dict"
  end.

(** An instance of [Exception], which is what [except Exception] catches:
    its class and [str(e)]. *)
Record Exception := mkException { exc_class : string; exc_str : str }.

Inductive result (A : Type) :=
| Ok (a : A)
| Raise (e : Exception).
Arguments Ok {A} a.
Arguments Raise {A} e.

Definition AttributeError (v : pyval) (attr : string) : Exception :=
  mkException "AttributeError"
    (lit "'" ++ type_name v ++ lit "' object has no attribute '" ++ lit attr ++ lit "'").

Definition not_subscriptable (v : pyval) : Exception :=
  mkException "TypeError" (lit "'" ++ type_name v ++ lit "' object is not subscriptable").

(** [o.get(key, default)]: only a [dict] has the method. *)
Definition py_get (o : pyval) (key : str) (default : pyval) : result pyval :=
  match o with
  | PDict d => Ok (match d !! key with Some v => v | None => default end)
  | _ => Raise (AttributeError o "get")
  end.

(** [o.strip()]: only a [str] has the method. *)
Definition py_strip (o : pyval) : result str :=
  match o with
  | PStr s => Ok (strip s)
  | _ => Raise (AttributeError o "strip")
  end.

(** [o[0]].  The keys of a [dict] are strings here, so the key [0] is never
    present. *)
Definition py_item0 (o : pyval) : result pyval :=
  match o with
  | PList (x :: _) => Ok x
  | PList [] => Raise (mkException "IndexError" (lit "list index out of range"))
  | PStr (c :: _) => Ok (PStr [c])
  | PStr [] => Raise (mkException "IndexError" (lit "string index out of range"))
  | PDict _ => Raise (mkException "KeyError" (lit "0"))
  | _ => Raise (not_subscriptable o)
  end.

(** [int(s)] for ASCII text: optional surrounding white space, an optional
    sign, then decimal digits, with single underscores allowed between
    digits.  (CPython also accepts the decimal digits of other scripts; the
    configuration loader below takes the parser as a parameter, and this
    function is its instance on ASCII text.) *)
Fixpoint digits (acc : Z) (after_digit : bool) (s : str) : option Z :=
  match s with
  | [] => if after_digit then Some acc else None
  | c :: s' =>
      if ((48 <=? c) && (c <=? 57))%N then digits (10 * acc + (Z.of_N c - 48)) true s'
      else if (c =? 95)%N then (if after_digit then digits acc false s' else None)
      else None
  end.

Definition ascii_int (s : str) : option Z :=
  match strip s with
  | 43%N :: s' => digits 0 false s'
  | 45%N :: s' => Z.opp <$> digits 0 false s'
  | s' => digits 0 false s'
  end.

End Py.
Export Py.

(** ** Configuration (module level of app1.py) *)

Module Config.

Record Config := mkConfig {
  MODEL_PATH : str;
  HOST_PORT : Z;
  LLM_N_CTX : Z;
  LLM_N_GPU_LAYERS : Z
}.

(** [os.environ.get(key, default)]: the variable's text, or the default
    as the source wrote it. *)
Definition environ_get {A : Type} (environ : gmap (list N) (list N))
    (key : str) (default : A) : str + A :=
  match environ !! key with
  | Some s => inl s
  | None => inr default
  end.

(** [ValueError: invalid literal for int() with base 10: ...], raised by
    [int] on text that is not an integer literal. *)
Record ValueError := invalid_literal { literal : str }.

Section Loader.

(** The builtin [int] on a [str]; [None] where it raises. *)
Variable int_of_str : str -> option Z.

(** [int(x)] where [x] is text from the environment or an [int] default. *)
Definition py_int (x : str + Z) : ValueError + Z :=
  match x with
  | inl s => match int_of_str s with
             | Some z => inr z
             | None => inl (invalid_literal s)
             end
  | inr z => inr z
  end.

(** Lines 9 to 13, evaluated in order when the module is imported: the
    first [int] that raises aborts the import. *)
Definition load_config (environ : gmap (list N) (list N)) : ValueError + Config :=
  let model_path :=
    match environ_get environ (lit "LLM_MODEL_PATH") (lit "llama-2-7b-chat.Q4_K_M.gguf") with
    | inl s => s
    | inr s => s
    end in
  match py_int (environ_get environ (lit "HOST_PORT") 5000) with
  | inl e => inl e
  | inr host_port =>
      match py_int (environ_get environ (lit "LLM_N_CTX") 4096) with
      | inl e => inl e
      | inr n_ctx =>
          match py_int (environ_get environ (lit "LLM_N_GPU_LAYERS") 0) with
          | inl e => inl e
          | inr n_gpu_layers => inr (mkConfig model_path host_port n_ctx n_gpu_layers)
          end
      end
  end.

End Loader.

(** The defaults written in the source. *)
Definition defaults : Config :=
  mkConfig (lit "llama-2-7b-chat.Q4_K_M.gguf") 5000 4096 0.

(** The names of the four environment variables. *)
Definition int_keys : list str :=
  [lit "HOST_PORT"; lit "LLM_N_CTX"; lit "LLM_N_GPU_LAYERS"].
Definition config_keys : list str := lit "LLM_MODEL_PATH" :: int_keys.

End Config.
Export Config.

(** ** The part of llama_cpp and os the program calls *)

Module LlamaCpp.

(** [LlamaCache] (in llama_cpp/llama_cache.py, an alias of
    [LlamaRAMCache]): its constructor takes one positional parameter,
    [capacity_bytes], and stores it.  Python does not check the argument's
    type, hence the type parameter. *)
Record LlamaRAMCache (A : Type) := LlamaCache { capacity_bytes : A }.
Arguments LlamaCache {A} capacity_bytes.
Arguments capacity_bytes {A} _.

(** A [Llama] instance (llama_cpp/llama.py): the constructor's arguments
    and the [cache] attribute.  [Llama.__init__] sets [cache] to [None];
    completions consult a cache object only after [set_cache] has attached
    one. *)
Record Llama := mkLlama {
  model_path : str;
  n_ctx : Z;
  n_gpu_layers : Z;
  verbose : bool;
  cache : option (LlamaRAMCache Z)
}.

Definition Llama_new (model_path : str) (n_ctx n_gpu_layers : Z) (verbose : bool) : Llama :=
  mkLlama model_path n_ctx n_gpu_layers verbose None.

(** [self.set_cache(c)]. *)
Definition set_cache (self : Llama) (c : option (LlamaRAMCache Z)) : Llama :=
  mkLlama (model_path self) (n_ctx self) (n_gpu_layers self) (verbose self) c.

Definition cache_enabled (self : Llama) : bool :=
  match cache self with Some _ => true | None => false end.

(** The arguments of [Llama.__call__] that the handler passes. *)
Record CompletionArgs := mkCompletionArgs {
  prompt : str;
  max_tokens : Z;
  stop : list str;
  echo : bool;
  temperature : float;
  top_k : Z;
  top_p : float
}.

(** What lies outside the program: the file system, whether the two
    constructors raise, and what a completion call returns or raises
    (sampling is not seeded, so nothing is assumed about it).  What is
    raised is an [Exception]; [KeyboardInterrupt] and [SystemExit], which
    are not, stop the process and are left out. *)
Record World := mkWorld {
  path_exists : str -> bool;
  Llama_raises : str -> Z -> Z -> bool -> option Exception;
  LlamaCache_raises : Llama -> option Exception;
  completion : Llama -> CompletionArgs -> result pyval
}.

End LlamaCpp.
Export LlamaCpp.

(** ** The program *)

Module App.

(** The module's global [llm]. *)
Record Globals := mkGlobals { llm : option Llama }.

Inductive stream := stdout | stderr.

(** What a run does besides computing its value: [print] calls (the text
    printed, without the final newline) and calls into llama_cpp. *)
Inductive event :=
| EPrint (file : stream) (text : str)
| ELlama (model_path : str) (n_ctx n_gpu_layers : Z) (verbose : bool)
| ELlamaCache (capacity_bytes : Llama)
| ECompletion (self : Llama) (args : CompletionArgs).

(** Computations: they read and write the globals, append to the trace, and
    return or raise.  A raise keeps the globals and the trace it reached. *)
Definition prog (A : Type) : Type := Globals -> Globals * list event * result A.

Definition ret {A} (a : A) : prog A := fun g => (g, [], Ok a).

Definition bind {A B} (m : prog A) (k : A -> prog B) : prog B :=
  fun g =>
    match m g with
    | (g1, t1, Ok a) => let '(g2, t2, r) := k a g1 in (g2, t1 ++ t2, r)
    | (g1, t1, Raise e) => (g1, t1, Raise e)
    end.

(** [try: body except Exception as e: handler e]. *)
Definition try_except {A} (body : prog A) (handler : Exception -> prog A) : prog A :=
  fun g =>
    match body g with
    | (g1, t1, Raise e) => let '(g2, t2, r) := handler e g1 in (g2, t1 ++ t2, r)
    | returned => returned
    end.

Definition lift {A} (r : result A) : prog A := fun g => (g, [], r).
Definition emit (ev : event) : prog unit := fun g => (g, [ev], Ok tt).
Definition print (file : stream) (text : str) : prog unit := emit (EPrint file text).
Definition read_llm : prog (option Llama) := fun g => (g, [], Ok (llm g)).
Definition assign_llm (v : option Llama) : prog unit := fun _ => (mkGlobals v, [], Ok tt).

Notation "x <- c1 ;; c2" := (bind c1 (fun x => c2))
  (at level 100, c1 at next level, right associativity).
Notation "c1 ;; c2" := (bind c1 (fun _ => c2))
  (at level 100, right associativity).

(** [Llama(model_path=..., n_ctx=..., n_gpu_layers=..., verbose=...)]. *)
Definition call_Llama (W : World) (path : str) (ctx gpu : Z) (vb : bool) : prog Llama :=
  emit (ELlama path ctx gpu vb) ;;
  match Llama_raises W path ctx gpu vb with
  | Some e => lift (Raise e)
  | None => ret (Llama_new path ctx gpu vb)
  end.

(** [LlamaCache(x)]: builds a cache object around [x]; [x] is not touched. *)
Definition call_LlamaCache (W : World) (x : Llama) : prog (LlamaRAMCache Llama) :=
  emit (ELlamaCache x) ;;
  match LlamaCache_raises W x with
  | Some e => lift (Raise e)
  | None => ret (LlamaCache x)
  end.

(** [self(prompt, max_tokens=..., ...)]. *)
Definition call_completion (W : World) (self : Llama) (args : CompletionArgs) : prog pyval :=
  emit (ECompletion self args) ;;
  lift (completion W self args).

(** A Flask response: the dictionary given to [jsonify] and the status
    (200 when the handler returns no status). *)
Record Response := mkResponse { json : gmap (list N) pyval; status : Z }.

Definition jsonify (key : string) (text : str) : gmap (list N) pyval :=
  {[ lit key := PStr text ]}.

(** The request as the handler reads it, through
    [request.get_json(silent=True)]: the parsed document, or [None] when
    the body is missing, is not valid JSON or is not sent as JSON. *)
Inductive Request :=
| Unparsed
| Parsed (document : pyval).

Definition get_json (request : Request) : pyval :=
  match request with
  | Unparsed => PNone
  | Parsed document => document
  end.

Definition is_None (v : pyval) : bool :=
  match v with PNone => true | _ => false end.

(** Lines 23 to 52. *)
Definition load_llm_model (W : World) (cfg : Config) : prog (option Llama) :=
  if negb (path_exists W (MODEL_PATH cfg)) then
    print stderr ([10060%N] ++ lit " Error: Model file '" ++ MODEL_PATH cfg ++ lit "' not found.") ;;
    print stderr (lit "Please ensure the file is in the correct directory or adjust the MODEL_PATH environment variable.") ;;
    ret None
  else
    print stdout (lit "Loading local AI model: " ++ MODEL_PATH cfg
                  ++ lit " (n_ctx=" ++ str_of_int (LLM_N_CTX cfg)
                  ++ lit ", n_gpu_layers=" ++ str_of_int (LLM_N_GPU_LAYERS cfg) ++ lit ")...") ;;
    try_except
      (h <- call_Llama W (MODEL_PATH cfg) (LLM_N_CTX cfg) (LLM_N_GPU_LAYERS cfg) false ;;
       assign_llm (Some h) ;;
       call_LlamaCache W h ;;
       print stdout ([9989%N] ++ lit " Model loaded successfully! KV-Cache is ENABLED.") ;;
       read_llm)
      (fun e =>
         print stderr ([128165%N] ++ lit " Error loading model: " ++ exc_str e) ;;
         ret None).

(** Lines 83 to 88. *)
Definition build_prompt (user_message : str) : str :=
  lit "A chat between a curious user and an AI assistant. The assistant gives helpful, concise, and polite answers to the user's questions. "
  ++ (lit "If the assistant does not know the answer, it says so." ++ nl ++ nl)
  ++ (lit "### User:" ++ nl ++ user_message ++ nl ++ nl)
  ++ (lit "### Assistant:" ++ nl).

(** Lines 64 to 126. *)
Definition chatbot_api (W : World) (request : Request) : prog Response :=
  model <- read_llm ;;
  match model with
  | None =>
      ret (mkResponse (jsonify "response" (lit "The chatbot model is not available. Check server logs.")) 503)
  | Some self =>
      let data := get_json request in
      if is_None data then
        ret (mkResponse (jsonify "error" (lit "Invalid JSON or missing request body.")) 400)
      else
        message <- lift (py_get data (lit "message") (PStr [])) ;;
        user_message <- lift (py_strip message) ;;
        match user_message with
        | [] => ret (mkResponse (jsonify "error" (lit "No message provided")) 400)
        | _ =>
            let prompt := build_prompt user_message in
            try_except
              (output <- call_completion W self
                           (mkCompletionArgs prompt 200
                              [lit "### User:"; nl ++ lit "###"]
                              false 0.7%float 40 0.95%float) ;;
               choices <- lift (py_get output (lit "choices") (PList [PDict ∅])) ;;
               choice <- lift (py_item0 choices) ;;
               text <- lift (py_get choice (lit "text") (PStr [])) ;;
               response_text <- lift (py_strip text) ;;
               print stdout (lit "--- Conversation ---") ;;
               print stdout ([128100%N] ++ lit " User: " ++ user_message) ;;
               print stdout ([129302%N] ++ lit " Bot: " ++ response_text ++ nl) ;;
               ret (mkResponse (jsonify "response" response_text) 200))
              (fun e =>
                 print stderr ([128165%N] ++ lit " An error occurred during model inference: " ++ exc_str e) ;;
                 ret (mkResponse (jsonify "response"
                        (lit "An internal server error occurred while generating a response.")) 500))
        end
  end.

(** The state in which the module starts: [llm = None]. *)
Definition initial : Globals := mkGlobals None.

(** The arguments the handler passes with a prompt (lines 102 to 110). *)
Definition inference_args (prompt : str) : CompletionArgs :=
  mkCompletionArgs prompt 200 [lit "### User:"; nl ++ lit "###"] false 0.7%float 40 0.95%float.

(** The fixed text before the user's turn: the first two literals of the
    prompt expression. *)
Definition preamble : str :=
  lit "A chat between a curious user and an AI assistant. The assistant gives helpful, concise, and polite answers to the user's questions. "
  ++ lit "If the assistant does not know the answer, it says so." ++ nl ++ nl.

(** [needle in haystack] for strings. *)
Definition contains (needle haystack : str) : Prop :=
  exists before after, haystack = before ++ needle ++ after.

(** Line 113 on its own: the text taken from the engine's output, or the
    exception one of its four steps raises. *)
Definition extract_text (output : pyval) : result str :=
  match py_get output (lit "choices") (PList [PDict ∅]) with
  | Raise e => Raise e
  | Ok choices =>
      match py_item0 choices with
      | Raise e => Raise e
      | Ok choice =>
          match py_get choice (lit "text") (PStr []) with
          | Raise e => Raise e
          | Ok text => py_strip text
          end
      end
  end.

(** The completion call followed by the extraction. *)
Definition generate (W : World) (self : Llama) (prompt : str) : result str :=
  match completion W self (inference_args prompt) with
  | Raise e => Raise e
  | Ok output => extract_text output
  end.

(** The trace and the outcome of a run. *)
Definition trace_of {A} (run : Globals * list event * result A) : list event := run.1.2.
Definition outcome_of {A} (run : Globals * list event * result A) : result A := run.2.
Definition globals_of {A} (run : Globals * list event * result A) : Globals := run.1.1.

(** The completion calls of a trace, in order. *)
Definition completions (t : list event) : list (Llama * CompletionArgs) :=
  omap (fun ev => match ev with ECompletion h a => Some (h, a) | _ => None end) t.

End App.
Export App.

(** ** Sample worlds and inputs, used to run the program *)

Module Samples.

(** An engine output with one choice. *)
Definition one_choice (text : str) : pyval :=
  PDict {[ lit "choices" := PList [PDict {[ lit "text" := PStr text ]}] ]}.

(** The model file exists, both constructors return, completions answer. *)
Definition engine_up : World :=
  mkWorld (fun _ => true) (fun _ _ _ _ => None) (fun _ => None)
          (fun _ _ => Ok (one_choice (lit " 4 "))).

(** As [engine_up], but [LlamaCache] raises. *)
Definition cache_fails : World :=
  mkWorld (fun _ => true) (fun _ _ _ _ => None)
          (fun _ => Some (mkException "MemoryError" []))
          (fun _ _ => Ok (one_choice (lit " 4 "))).

(** As [engine_up], but every completion raises. *)
Definition inference_fails : World :=
  mkWorld (fun _ => true) (fun _ _ _ _ => None) (fun _ => None)
          (fun _ _ => Raise (mkException "RuntimeError" (lit "llama_decode returned -1"))).

(** As [engine_up], but completions return an empty list of choices. *)
Definition no_choices : World :=
  mkWorld (fun _ => true) (fun _ _ _ _ => None) (fun _ => None)
          (fun _ _ => Ok (PDict {[ lit "choices" := PList [] ]})).

(** The handle [load_llm_model] builds under the default configuration. *)
Definition default_llama : Llama :=
  Llama_new (MODEL_PATH defaults) (LLM_N_CTX defaults) (LLM_N_GPU_LAYERS defaults) false.

Definition ready : Globals := mkGlobals (Some default_llama).

(** The body [{"message": text}]. *)
Definition message_body (text : str) : gmap (list N) pyval :=
  {[ lit "message" := PStr text ]}.

End Samples.
Export Samples.

(** ** Importing and running the module *)

Module Boot.


(** The arguments of [app.run] on line 131. *)
Record RunArgs := mkRunArgs { debug : bool; port : Z; host : str }.

(** Lines 127 to 131, when the file is run as a script: the announcement,
    then [app.run(debug=True, port=HOST_PORT, host='0.0.0.0')], which serves
    until the process stops; the run ends here with the call's arguments. *)
Definition main (cfg : Config) : prog RunArgs :=
  print stdout (lit "Starting Flask server on port " ++ str_of_int (HOST_PORT cfg) ++ lit "...") ;;
  ret (mkRunArgs true (HOST_PORT cfg) (lit "0.0.0.0")).


(** The constructor calls into llama_cpp, in order. *)
Definition constructor_calls (t : list event) : list event :=
  omap (fun ev =>
          match ev with
          | ELlama _ _ _ _ | ELlamaCache _ => Some ev
          | _ => None
          end) t.

(** The paths through [chatbot_api], one constructor per [return] or
    escaping exception of lines 68 to 126, each with the run it gives. *)
Inductive handled (W : World) (g : Globals)
  : Request -> Globals * list event * result Response -> Prop :=
| handled_unavailable request :
    llm g = None ->
    handled W g request
      (g, [], Ok (mkResponse
                    (jsonify "response"
                       (lit "The chatbot model is not available. Check server logs.")) 503))
| handled_unreadable self request :
    llm g = Some self -> get_json request = PNone ->
    handled W g request
      (g, [], Ok (mkResponse (jsonify "error" (lit "Invalid JSON or missing request body.")) 400))
| handled_not_object self document :
    llm g = Some self -> is_None document = false -> (forall d, document <> PDict d) ->
    handled W g (Parsed document) (g, [], Raise (AttributeError document "get"))
| handled_no_message self d :
    llm g = Some self -> d !! lit "message" = None ->
    handled W g (Parsed (PDict d))
      (g, [], Ok (mkResponse (jsonify "error" (lit "No message provided")) 400))
| handled_not_text self d v :
    llm g = Some self -> d !! lit "message" = Some v -> (forall s, v <> PStr s) ->
    handled W g (Parsed (PDict d)) (g, [], Raise (AttributeError v "strip"))
| handled_blank self d raw :
    llm g = Some self -> d !! lit "message" = Some (PStr raw) -> strip raw = [] ->
    handled W g (Parsed (PDict d))
      (g, [], Ok (mkResponse (jsonify "error" (lit "No message provided")) 400))
| handled_answer self d raw text :
    llm g = Some self -> d !! lit "message" = Some (PStr raw) -> strip raw <> [] ->
    generate W self (build_prompt (strip raw)) = Ok text ->
    handled W g (Parsed (PDict d))
      (g,
       [ECompletion self (inference_args (build_prompt (strip raw)));
        EPrint stdout (lit "--- Conversation ---");
        EPrint stdout ([128100%N] ++ lit " User: " ++ strip raw);
        EPrint stdout ([129302%N] ++ lit " Bot: " ++ text ++ nl)],
       Ok (mkResponse (jsonify "response" text) 200))
| handled_failure self d raw e :
    llm g = Some self -> d !! lit "message" = Some (PStr raw) -> strip raw <> [] ->
    generate W self (build_prompt (strip raw)) = Raise e ->
    handled W g (Parsed (PDict d))
      (g,
       [ECompletion self (inference_args (build_prompt (strip raw)));
        EPrint stderr ([128165%N] ++ lit " An error occurred during model inference: " ++ exc_str e)],
       Ok (mkResponse
             (jsonify "response"
                (lit "An internal server error occurred while generating a response.")) 500)).


Definition constructor_fails : World :=
  mkWorld (fun _ => true)
          (fun _ _ _ _ => Some (mkException "ValueError" (lit "Failed to load model from file")))
          (fun _ => None)
          (fun _ _ => Ok (one_choice (lit " 4 "))).

(** The decimal digits of [d] read from the most significant one, on top
    of [acc]. *)
Fixpoint decimal_value (acc : N) (d : Decimal.uint) : N :=
  match d with
  | Decimal.Nil => acc
  | Decimal.D0 d => decimal_value (10 * acc) d
  | Decimal.D1 d => decimal_value (10 * acc + 1) d
  | Decimal.D2 d => decimal_value (10 * acc + 2) d
  | Decimal.D3 d => decimal_value (10 * acc + 3) d
  | Decimal.D4 d => decimal_value (10 * acc + 4) d
  | Decimal.D5 d => decimal_value (10 * acc + 5) d
  | Decimal.D6 d => decimal_value (10 * acc + 6) d
  | Decimal.D7 d => decimal_value (10 * acc + 7) d
  | Decimal.D8 d => decimal_value (10 * acc + 8) d
  | Decimal.D9 d => decimal_value (10 * acc + 9) d
  end%N.

End Boot.
Export Boot.

(** ** Running the program *)

Ltac unfold_prog :=
  repeat (progress unfold try_except, bind, call_completion, call_Llama,
            call_LlamaCache, print, emit, lift, ret, read_llm, assign_llm).

Ltac case_result :=
  match goal with
  | |- context [match ?x with Ok _ => _ | Raise _ => _ end] => destruct x eqn:?
  end.

Section Runs.

Variable W : World.

(** [load_llm_model], case by case. *)
Lemma load_llm_model_cases (cfg : Config) (g : Globals) :
  let h := Llama_new (MODEL_PATH cfg) (LLM_N_CTX cfg) (LLM_N_GPU_LAYERS cfg) false in
  let loading :=
    EPrint stdout (lit "Loading local AI model: " ++ MODEL_PATH cfg
                   ++ lit " (n_ctx=" ++ str_of_int (LLM_N_CTX cfg)
                   ++ lit ", n_gpu_layers=" ++ str_of_int (LLM_N_GPU_LAYERS cfg) ++ lit ")...") in
  let built := ELlama (MODEL_PATH cfg) (LLM_N_CTX cfg) (LLM_N_GPU_LAYERS cfg) false in
  let failed e := EPrint stderr ([128165%N] ++ lit " Error loading model: " ++ exc_str e) in
  load_llm_model W cfg g =
    if path_exists W (MODEL_PATH cfg) then
      match Llama_raises W (MODEL_PATH cfg) (LLM_N_CTX cfg) (LLM_N_GPU_LAYERS cfg) false with
      | Some e => (g, [loading; built; failed e], Ok None)
      | None =>
          match LlamaCache_raises W h with
          | Some e => (mkGlobals (Some h), [loading; built; ELlamaCache h; failed e], Ok None)
          | None =>
              (mkGlobals (Some h),
               [loading; built; ELlamaCache h;
                EPrint stdout ([9989%N] ++ lit " Model loaded successfully! KV-Cache is ENABLED.")],
               Ok (Some h))
          end
      end
    else
      (g,
       [EPrint stderr ([10060%N] ++ lit " Error: Model file '" ++ MODEL_PATH cfg ++ lit "' not found.");
        EPrint stderr (lit "Please ensure the file is in the correct directory or adjust the MODEL_PATH environment variable.")],
       Ok None).
Proof.
  intros h loading built failed. unfold load_llm_model.
  destruct (path_exists W (MODEL_PATH cfg)); cbn [negb]; [|reflexivity].
  unfold_prog. cbn beta iota.
  destruct (Llama_raises W _ _ _ _); [reflexivity|]. cbn beta iota.
  fold h. destruct (LlamaCache_raises W h); reflexivity.
Qed.

(** The handler when the model is loaded and the body carries a message
    that is not blank: one completion call, then 200 or 500. *)
Lemma chatbot_api_inference (g : Globals) (self : Llama)
    (d : gmap (list N) pyval) (raw : list N) :
  llm g = Some self ->
  d !! lit "message" = Some (PStr raw) ->
  strip raw <> [] ->
  chatbot_api W (Parsed (PDict d)) g =
    let call := ECompletion self (inference_args (build_prompt (strip raw))) in
    match generate W self (build_prompt (strip raw)) with
    | Ok text =>
        (g,
         [call;
          EPrint stdout (lit "--- Conversation ---");
          EPrint stdout ([128100%N] ++ lit " User: " ++ strip raw);
          EPrint stdout ([129302%N] ++ lit " Bot: " ++ text ++ nl)],
         Ok (mkResponse (jsonify "response" text) 200))
    | Raise e =>
        (g,
         [call;
          EPrint stderr ([128165%N] ++ lit " An error occurred during model inference: " ++ exc_str e)],
         Ok (mkResponse
               (jsonify "response"
                  (lit "An internal server error occurred while generating a response."))
               500))
    end.
Proof.
  intros Hl Hm Hs.
  unfold chatbot_api, bind, read_llm. rewrite Hl.
  cbn [get_json is_None py_get lift]. rewrite Hm. cbn [py_strip].
  destruct (strip raw) as [|c s] eqn:E; [done|].
  unfold generate, extract_text, inference_args.
  unfold_prog. cbn beta iota.
  repeat case_result; reflexivity.
Qed.

(** The body could not be read as JSON: 400, and nothing else happens. *)
Lemma chatbot_api_unparsed (self : Llama) :
  chatbot_api W Unparsed (mkGlobals (Some self)) =
    (mkGlobals (Some self), [],
     Ok (mkResponse (jsonify "error" (lit "Invalid JSON or missing request body.")) 400)).
Proof. reflexivity. Qed.

(** A JSON object without [message], or whose [message] is a blank
    string: 400, and nothing else happens. *)
Lemma chatbot_api_no_message (self : Llama) (d : gmap (list N) pyval) :
  d !! lit "message" = None \/
  (exists raw, d !! lit "message" = Some (PStr raw) /\ strip raw = []) ->
  chatbot_api W (Parsed (PDict d)) (mkGlobals (Some self)) =
    (mkGlobals (Some self), [],
     Ok (mkResponse (jsonify "error" (lit "No message provided")) 400)).
Proof.
  intros H. unfold chatbot_api, bind, read_llm.
  cbn [llm get_json is_None py_get lift].
  destruct H as [H | (raw & H & Hb)]; rewrite H; cbn [py_strip].
  - reflexivity.
  - rewrite Hb. reflexivity.
Qed.

(** A JSON document that is neither [null] nor an object: [data.get]
    raises, outside the [try]. *)
Lemma chatbot_api_not_an_object (self : Llama) (document : pyval) :
  is_None document = false ->
  (forall d, document <> PDict d) ->
  chatbot_api W (Parsed document) (mkGlobals (Some self)) =
    (mkGlobals (Some self), [], Raise (AttributeError document "get")).
Proof.
  intros Hn Hd. unfold chatbot_api, bind, read_llm.
  cbn [llm get_json]. rewrite Hn.
  destruct document; try discriminate; try reflexivity.
  exfalso. eapply Hd. reflexivity.
Qed.

(** With the model loaded, the handler answers 400, 200 or 500, or an
    exception leaves it (raised by [.get] or [.strip] on the request's
    data). *)
Lemma chatbot_api_ready_status (self : Llama) (request : Request) :
  match outcome_of (chatbot_api W request (mkGlobals (Some self))) with
  | Ok response => status response = 400 \/ status response = 200 \/ status response = 500
  | Raise e => exc_class e = "AttributeError"%string
  end.
Proof.
  destruct request as [|document]; [left; reflexivity|].
  destruct document as [| | | | | |d]; try reflexivity; try (left; reflexivity).
  destruct (d !! lit "message") as [v|] eqn:Hm.
  - destruct v as [| | | |raw| |];
      try (unfold chatbot_api, bind, read_llm;
           cbn [llm get_json is_None py_get lift]; rewrite Hm; reflexivity).
    destruct (strip raw) as [|c s] eqn:Hs.
    + rewrite chatbot_api_no_message by (right; eauto). left; reflexivity.
    + rewrite (chatbot_api_inference (mkGlobals (Some self)) self d raw eq_refl Hm)
        by (rewrite Hs; discriminate).
      cbn zeta. destruct (generate W self _); cbn; auto.
  - rewrite chatbot_api_no_message by (left; exact Hm). left; reflexivity.
Qed.

(** The engine is called only for a request that passed the three checks:
    model loaded, body a JSON object, [message] a string that is not
    blank. *)
Lemma inference_reached_only_if (g : Globals) (request : Request) :
  completions (trace_of (chatbot_api W request g)) <> [] ->
  exists self d raw,
    llm g = Some self /\ request = Parsed (PDict d)
    /\ d !! lit "message" = Some (PStr raw) /\ strip raw <> [].
Proof.
  destruct g as [[self|]]; [|intros H; exfalso; apply H; reflexivity].
  destruct request as [|document]; [intros H; exfalso; apply H; reflexivity|].
  destruct document as [| | | | | |d];
    try (intros H; exfalso; apply H; reflexivity).
  destruct (d !! lit "message") as [v|] eqn:Hm.
  - destruct v as [| | | |raw| |];
      try (intros H; exfalso; apply H; unfold chatbot_api, bind, read_llm;
           cbn [llm get_json is_None py_get lift]; rewrite Hm; reflexivity).
    destruct (strip raw) as [|c s] eqn:Hs.
    + rewrite chatbot_api_no_message by (right; eauto).
      intros H; exfalso; apply H; reflexivity.
    + intros _. exists self, d, raw. rewrite Hs. repeat split; [exact Hm | discriminate].
  - rewrite chatbot_api_no_message by (left; exact Hm).
    intros H; exfalso; apply H; reflexivity.
Qed.

(** Attaching a cache is what [set_cache] does; the constructor [Llama_new]
    leaves it unset. *)
Lemma set_cache_enables (self : Llama) (c : LlamaRAMCache Z) :
  cache_enabled (set_cache self (Some c)) = true
  /\ cache_enabled (Llama_new (model_path self) (n_ctx self) (n_gpu_layers self) (verbose self))
       = false.
Proof. split; reflexivity. Qed.

(** The extraction of line 113, case by case. *)
Lemma extract_text_cases (d c : gmap (list N) pyval) (rest : list pyval) (text : list N) :
  (d !! lit "choices" = None -> extract_text (PDict d) = Ok [])
  /\ (d !! lit "choices" = Some (PList (PDict c :: rest)) -> c !! lit "text" = None ->
        extract_text (PDict d) = Ok [])
  /\ (d !! lit "choices" = Some (PList (PDict c :: rest)) -> c !! lit "text" = Some (PStr text) ->
        extract_text (PDict d) = Ok (strip text))
  /\ (d !! lit "choices" = Some (PList []) ->
        extract_text (PDict d) = Raise (mkException "IndexError" (lit "list index out of range"))).
Proof.
  unfold extract_text. cbn [py_get].
  split; [|split; [|split]].
  - intros H. rewrite H. reflexivity.
  - intros H Hc. rewrite H. cbn [py_item0 py_get]. rewrite Hc. reflexivity.
  - intros H Hc. rewrite H. cbn [py_item0 py_get]. rewrite Hc. reflexivity.
  - intros H. rewrite H. reflexivity.
Qed.

End Runs.

(** ** Configuration *)

Section ConfigFacts.

Variable int_of_str : str -> option Z.

(** [load_config] reads the environment only at the four keys. *)
Lemma load_config_agree (env1 env2 : gmap (list N) (list N)) :
  (forall key, key ∈ config_keys -> env1 !! key = env2 !! key) ->
  load_config int_of_str env1 = load_config int_of_str env2.
Proof.
  intros H. unfold load_config, environ_get.
  rewrite (H (lit "LLM_MODEL_PATH")), (H (lit "HOST_PORT")),
          (H (lit "LLM_N_CTX")), (H (lit "LLM_N_GPU_LAYERS"));
    try reflexivity; unfold config_keys, int_keys; set_solver.
Qed.

(** When an integer variable holds text that [int] rejects, the import
    raises [ValueError]. *)
Lemma load_config_unparseable (environ : gmap (list N) (list N)) (key text : str) :
  key ∈ int_keys -> environ !! key = Some text -> int_of_str text = None ->
  exists bad, load_config int_of_str environ = inl (invalid_literal bad)
              /\ int_of_str bad = None.
Proof.
  intros Hk Hv Hbad. unfold load_config, environ_get, py_int.
  unfold int_keys in Hk.
  repeat (apply elem_of_cons in Hk as [-> | Hk]);
    [..| by apply elem_of_nil in Hk];
    repeat match goal with
           | |- context [match ?env !! ?k with _ => _ end] =>
               first [rewrite Hv | destruct (env !! k) eqn:?]
           | |- context [match int_of_str ?s with _ => _ end] =>
               first [rewrite Hbad | destruct (int_of_str s) eqn:?]
           end; eauto.
Qed.

(** When every integer variable that is set holds text that [int]
    accepts, the import succeeds, and each setting is the variable's
    value if set and the default otherwise. *)
Lemma load_config_loads (environ : gmap (list N) (list N)) :
  (forall key text, key ∈ int_keys -> environ !! key = Some text ->
                    is_Some (int_of_str text)) ->
  exists cfg, load_config int_of_str environ = inr cfg
    /\ MODEL_PATH cfg = default (lit "llama-2-7b-chat.Q4_K_M.gguf") (environ !! lit "LLM_MODEL_PATH")
    /\ Some (HOST_PORT cfg) = from_option int_of_str (Some 5000) (environ !! lit "HOST_PORT")
    /\ Some (LLM_N_CTX cfg) = from_option int_of_str (Some 4096) (environ !! lit "LLM_N_CTX")
    /\ Some (LLM_N_GPU_LAYERS cfg) = from_option int_of_str (Some 0) (environ !! lit "LLM_N_GPU_LAYERS").
Proof.
  intros H. unfold load_config, environ_get, py_int.
  destruct (environ !! lit "LLM_MODEL_PATH") as [m|];
    destruct (environ !! lit "HOST_PORT") as [p|] eqn:Hp;
    destruct (environ !! lit "LLM_N_CTX") as [c|] eqn:Hc;
    destruct (environ !! lit "LLM_N_GPU_LAYERS") as [l|] eqn:Hl;
    cbn [from_option default];
    repeat match goal with
           | E : environ !! ?k = Some ?t |- context [int_of_str ?t] =>
               let Hz := fresh "Hz" in
               destruct (H k t) as [? Hz];
               [unfold int_keys; set_solver | exact E | rewrite Hz; clear E]
           end;
    eexists; repeat split.
Qed.

End ConfigFacts.

(** C7, as stated, fails: with [HOST_PORT=abc] the loader does not fall
    back to 5000; [int("abc")] raises [ValueError] and no configuration is
    produced. *)
Lemma C7_unparseable_port_raises :
  ascii_int (lit "abc") = None
  /\ load_config ascii_int {[ lit "HOST_PORT" := lit "abc" ]} = inl (invalid_literal (lit "abc"))
  /\ ~ (exists cfg, load_config ascii_int {[ lit "HOST_PORT" := lit "abc" ]} = inr cfg
                    /\ HOST_PORT cfg = 5000).
Proof.
  split; [reflexivity|]. split; [reflexivity|].
  intros (cfg & H & _). discriminate H.
Qed.

(** C7, amended.  Each of the four settings takes its hardcoded default
    when its environment variable is absent (given that the module loads).
    When one of the three integer variables holds text that [int] rejects,
    loading raises [ValueError] and no configuration is produced.  The
    module loads whenever the integer variables that are set hold integer
    literals; the model path, a string, is then taken as it is. *)
Theorem C7_absent_default_unparseable_raises
    (int_of_str : str -> option Z) (environ : gmap (list N) (list N)) :
  (forall cfg, load_config int_of_str environ = inr cfg ->
     (environ !! lit "LLM_MODEL_PATH" = None ->
        MODEL_PATH cfg = lit "llama-2-7b-chat.Q4_K_M.gguf")
     /\ (environ !! lit "HOST_PORT" = None -> HOST_PORT cfg = 5000)
     /\ (environ !! lit "LLM_N_CTX" = None -> LLM_N_CTX cfg = 4096)
     /\ (environ !! lit "LLM_N_GPU_LAYERS" = None -> LLM_N_GPU_LAYERS cfg = 0))
  /\ (forall key text,
        key ∈ int_keys -> environ !! key = Some text -> int_of_str text = None ->
        exists bad, load_config int_of_str environ = inl (invalid_literal bad)
                    /\ int_of_str bad = None)
  /\ ((forall key text, key ∈ int_keys -> environ !! key = Some text ->
                        is_Some (int_of_str text)) ->
      exists cfg, load_config int_of_str environ = inr cfg
        /\ forall text, environ !! lit "LLM_MODEL_PATH" = Some text -> MODEL_PATH cfg = text).
Proof.
  split; [|split].
  - intros cfg Hcfg. unfold load_config, environ_get, py_int in Hcfg.
    repeat split; intros Habs; rewrite Habs in Hcfg;
      repeat match type of Hcfg with
             | context [match ?env !! ?k with _ => _ end] => destruct (env !! k)
             | context [match int_of_str ?s with _ => _ end] => destruct (int_of_str s)
             end; inversion Hcfg; reflexivity.
  - intros key text. apply load_config_unparseable.
  - intros H. destruct (load_config_loads int_of_str environ H) as (cfg & Hcfg & Hpath & _).
    exists cfg. split; [exact Hcfg|]. intros text Ht. rewrite Hpath, Ht. reflexivity.
Qed.

Lemma C7_absent_default_unparseable_raises_witness :
  (load_config ascii_int {[ lit "HOST_PORT" := lit "8080" ]}
     = inr (mkConfig (lit "llama-2-7b-chat.Q4_K_M.gguf") 8080 4096 0)
   /\ LLM_N_CTX (mkConfig (lit "llama-2-7b-chat.Q4_K_M.gguf") 8080 4096 0) = 4096)
  /\ (lit "LLM_N_CTX" ∈ int_keys
      /\ ({[ lit "LLM_N_CTX" := lit "4k" ]} : gmap (list N) (list N)) !! lit "LLM_N_CTX"
           = Some (lit "4k")
      /\ ascii_int (lit "4k") = None
      /\ exists bad, load_config ascii_int {[ lit "LLM_N_CTX" := lit "4k" ]}
                       = inl (invalid_literal bad) /\ ascii_int bad = None).
Proof.
  split.
  - split; [reflexivity|].
    apply (C7_absent_default_unparseable_raises ascii_int {[ lit "HOST_PORT" := lit "8080" ]});
      reflexivity.
  - assert (Hin : lit "LLM_N_CTX" ∈ int_keys) by (unfold int_keys; set_solver).
    split; [exact Hin|]. split; [reflexivity|]. split; [reflexivity|].
    apply (C7_absent_default_unparseable_raises ascii_int {[ lit "LLM_N_CTX" := lit "4k" ]})
      with (key := lit "LLM_N_CTX") (text := lit "4k"); [exact Hin | reflexivity | reflexivity].
Defined.

(** C9. Configuration loading is a function of the four environment
    variables: two environments that agree on them give the same result;
    and when none of the four is set the result is the documented
    defaults: model path "llama-2-7b-chat.Q4_K_M.gguf", port 5000, context
    size 4096, GPU layer count 0. *)
Theorem C9_config_deterministic (int_of_str : str -> option Z) :
  (forall env1 env2 : gmap (list N) (list N),
     (forall key, key ∈ config_keys -> env1 !! key = env2 !! key) ->
     load_config int_of_str env1 = load_config int_of_str env2)
  /\ (forall environ : gmap (list N) (list N),
        (forall key, key ∈ config_keys -> environ !! key = None) ->
        load_config int_of_str environ =
          inr {| MODEL_PATH := lit "llama-2-7b-chat.Q4_K_M.gguf";
                 HOST_PORT := 5000;
                 LLM_N_CTX := 4096;
                 LLM_N_GPU_LAYERS := 0 |}).
Proof.
  split.
  - apply load_config_agree.
  - intros environ H.
    rewrite (load_config_agree int_of_str environ ∅).
    + reflexivity.
    + intros key Hk. rewrite (H key Hk), lookup_empty. reflexivity.
Qed.

Lemma C9_config_deterministic_witness :
  load_config ascii_int {[ lit "HOME" := lit "/root" ]}
    = load_config ascii_int {[ lit "LANG" := lit "C" ]}
  /\ load_config ascii_int {[ lit "HOME" := lit "/root" ]} = inr defaults.
Proof.
  split.
  - apply (C9_config_deterministic ascii_int).
    intros key Hk. unfold config_keys, int_keys in Hk.
    repeat (apply elem_of_cons in Hk as [-> | Hk]; [reflexivity|]).
    by apply elem_of_nil in Hk.
  - apply (C9_config_deterministic ascii_int).
    intros key Hk. unfold config_keys, int_keys in Hk.
    repeat (apply elem_of_cons in Hk as [-> | Hk]; [reflexivity|]).
    by apply elem_of_nil in Hk.
Defined.

(** ** The request handler *)

(** C1. While the model handle is unavailable (the global [llm] is [None]),
    every request to [/chatbot], whatever its body (missing and malformed
    bodies included), is answered with status 503 and the body
    [{"response": "The chatbot model is not available. Check server logs."}];
    nothing is printed, the engine is not called and the globals are
    unchanged. *)
Theorem C1_unavailable_503 (W : World) (request : Request) (g : Globals) :
  llm g = None ->
  chatbot_api W request g =
    (g, [],
     Ok (mkResponse
           {[ lit "response" :=
                PStr (lit "The chatbot model is not available. Check server logs.") ]}
           503)).
Proof.
  intros Hl. unfold chatbot_api, bind, read_llm. rewrite Hl. reflexivity.
Qed.

Lemma C1_unavailable_503_witness :
  llm initial = None /\
  chatbot_api engine_up Unparsed initial =
    (initial, [],
     Ok (mkResponse
           {[ lit "response" :=
                PStr (lit "The chatbot model is not available. Check server logs.") ]}
           503)).
Proof.
  split; [reflexivity|].
  apply (C1_unavailable_503 engine_up Unparsed initial). reflexivity.
Defined.

(** C2, at the input where the code departs from it.  With the model
    loaded, the body [[]] is valid JSON without a [message] field; the
    handler does not answer 400 "No message provided": [data.get] raises
    [AttributeError] before the [try] block, and the exception leaves the
    handler.  (Lemmas [chatbot_api_unparsed] and [chatbot_api_no_message]
    above give the two 400 answers for unreadable bodies and for JSON
    objects.) *)
Theorem C2_array_body_raises (W : World) (self : Llama) :
  chatbot_api W (Parsed (PList [])) (mkGlobals (Some self)) =
    (mkGlobals (Some self), [],
     Raise (mkException "AttributeError" (lit "'list' object has no attribute 'get'"))).
Proof.
  apply chatbot_api_not_an_object; [reflexivity | discriminate].
Qed.

(** C3. For every user message [m] the prompt is the fixed preamble, then
    the section ["### User:\n" m "\n\n"], then ["### Assistant:\n"], with
    which it ends; so it contains ["### User:\n" m].  For
    [m = "What is 2+2?"] it contains ["### User:\nWhat is 2+2?"] and ends
    with ["### Assistant:\n"]. *)
Theorem C3_prompt_shape (m : str) :
  build_prompt m
    = preamble ++ (lit "### User:" ++ nl ++ m ++ nl ++ nl) ++ (lit "### Assistant:" ++ nl)
  /\ contains (lit "### User:" ++ nl ++ m) (build_prompt m)
  /\ (lit "### Assistant:" ++ nl) `suffix_of` build_prompt m
  /\ contains (lit "### User:" ++ nl ++ lit "What is 2+2?") (build_prompt (lit "What is 2+2?"))
  /\ (lit "### Assistant:" ++ nl) `suffix_of` build_prompt (lit "What is 2+2?").
Proof.
  assert (shape : forall x, build_prompt x
    = preamble ++ (lit "### User:" ++ nl ++ x ++ nl ++ nl) ++ (lit "### Assistant:" ++ nl)).
  { intros x. unfold build_prompt, preamble. rewrite <- !List.app_assoc. reflexivity. }
  assert (user : forall x, contains (lit "### User:" ++ nl ++ x) (build_prompt x)).
  { intros x. exists preamble, (nl ++ nl ++ lit "### Assistant:" ++ nl).
    rewrite shape, <- !List.app_assoc. reflexivity. }
  assert (tail : forall x, (lit "### Assistant:" ++ nl) `suffix_of` build_prompt x).
  { intros x. exists (preamble ++ lit "### User:" ++ nl ++ x ++ nl ++ nl).
    rewrite shape, <- !List.app_assoc. reflexivity. }
  repeat split; auto.
Qed.

(** C4. A request reaches the inference call when the model is loaded and
    the body is a JSON object whose [message] is a string that is not
    blank.  The handler then calls the model exactly once, with the prompt
    built from the trimmed message, [max_tokens=200],
    [stop=["### User:", "\n###"]], [echo=False], [temperature=0.7],
    [top_k=40] and [top_p=0.95]. *)
Theorem C4_inference_arguments (W : World) (g : Globals) (self : Llama)
    (d : gmap (list N) pyval) (raw : list N) :
  llm g = Some self ->
  d !! lit "message" = Some (PStr raw) ->
  strip raw <> [] ->
  completions (trace_of (chatbot_api W (Parsed (PDict d)) g)) =
    [(self,
      {| prompt := build_prompt (strip raw);
         max_tokens := 200;
         stop := [lit "### User:"; nl ++ lit "###"];
         echo := false;
         temperature := 0.7%float;
         top_k := 40;
         top_p := 0.95%float |})].
Proof.
  intros Hl Hm Hs. rewrite (chatbot_api_inference W g self d raw Hl Hm Hs).
  cbn zeta. destruct (generate W self _); reflexivity.
Qed.

Lemma C4_inference_arguments_witness :
  llm ready = Some default_llama /\
  message_body (lit "  Hello ") !! lit "message" = Some (PStr (lit "  Hello ")) /\
  strip (lit "  Hello ") <> [] /\
  completions (trace_of (chatbot_api engine_up (Parsed (PDict (message_body (lit "  Hello ")))) ready)) =
    [(default_llama,
      {| prompt := build_prompt (lit "Hello");
         max_tokens := 200;
         stop := [lit "### User:"; nl ++ lit "###"];
         echo := false;
         temperature := 0.7%float;
         top_k := 40;
         top_p := 0.95%float |})].
Proof.
  split; [reflexivity|]. split; [reflexivity|]. split; [discriminate|].
  apply (C4_inference_arguments engine_up ready default_llama
           (message_body (lit "  Hello ")) (lit "  Hello "));
    [reflexivity | reflexivity | discriminate].
Defined.

(** C5. When the inference call of a request raises an exception [e], the
    handler catches it: it returns (no exception leaves it) status 500 with
    the fixed body
    [{"response": "An internal server error occurred while generating a response."}].
    The response is the same for every [e]; the text of [e] goes to
    [stderr] only. *)
Theorem C5_inference_exception_500 (W : World) (g : Globals) (self : Llama)
    (d : gmap (list N) pyval) (raw : list N) (e : Exception) :
  llm g = Some self ->
  d !! lit "message" = Some (PStr raw) ->
  strip raw <> [] ->
  completion W self (inference_args (build_prompt (strip raw))) = Raise e ->
  chatbot_api W (Parsed (PDict d)) g =
    (g,
     [ECompletion self (inference_args (build_prompt (strip raw)));
      EPrint stderr ([128165%N] ++ lit " An error occurred during model inference: " ++ exc_str e)],
     Ok (mkResponse
           {[ lit "response" :=
                PStr (lit "An internal server error occurred while generating a response.") ]}
           500)).
Proof.
  intros Hl Hm Hs He. rewrite (chatbot_api_inference W g self d raw Hl Hm Hs).
  unfold generate. rewrite He. reflexivity.
Qed.

Lemma C5_inference_exception_500_witness :
  llm ready = Some default_llama /\
  message_body (lit "Hello") !! lit "message" = Some (PStr (lit "Hello")) /\
  strip (lit "Hello") <> [] /\
  completion inference_fails default_llama (inference_args (build_prompt (strip (lit "Hello"))))
    = Raise (mkException "RuntimeError" (lit "llama_decode returned -1")) /\
  outcome_of (chatbot_api inference_fails (Parsed (PDict (message_body (lit "Hello")))) ready) =
    Ok (mkResponse
          {[ lit "response" :=
               PStr (lit "An internal server error occurred while generating a response.") ]}
          500).
Proof.
  split; [reflexivity|]. split; [reflexivity|]. split; [discriminate|].
  split; [reflexivity|].
  rewrite (C5_inference_exception_500 inference_fails ready default_llama
             (message_body (lit "Hello")) (lit "Hello")
             (mkException "RuntimeError" (lit "llama_decode returned -1")));
    [reflexivity | reflexivity | reflexivity | discriminate | reflexivity].
Defined.

(** C8, at the input where the code departs from it.  When the engine
    returns [{"choices": []}], the default [[{}]] of [.get] does not apply,
    [[][0]] raises [IndexError], the handler's [except] catches it, and the
    request ends with status 500, not with 200 and an empty text. *)
Theorem C8_empty_choices_500 (W : World) (g : Globals) (self : Llama)
    (d : gmap (list N) pyval) (raw : list N) :
  llm g = Some self ->
  d !! lit "message" = Some (PStr raw) ->
  strip raw <> [] ->
  completion W self (inference_args (build_prompt (strip raw)))
    = Ok (PDict {[ lit "choices" := PList [] ]}) ->
  chatbot_api W (Parsed (PDict d)) g =
    (g,
     [ECompletion self (inference_args (build_prompt (strip raw)));
      EPrint stderr ([128165%N] ++ lit " An error occurred during model inference: "
                     ++ lit "list index out of range")],
     Ok (mkResponse
           {[ lit "response" :=
                PStr (lit "An internal server error occurred while generating a response.") ]}
           500)).
Proof.
  intros Hl Hm Hs Ho. rewrite (chatbot_api_inference W g self d raw Hl Hm Hs).
  unfold generate. rewrite Ho. reflexivity.
Qed.

Lemma C8_empty_choices_500_witness :
  llm ready = Some default_llama /\
  message_body (lit "Hello") !! lit "message" = Some (PStr (lit "Hello")) /\
  strip (lit "Hello") <> [] /\
  completion no_choices default_llama (inference_args (build_prompt (strip (lit "Hello"))))
    = Ok (PDict {[ lit "choices" := PList [] ]}) /\
  outcome_of (chatbot_api no_choices (Parsed (PDict (message_body (lit "Hello")))) ready) =
    Ok (mkResponse
          {[ lit "response" :=
               PStr (lit "An internal server error occurred while generating a response.") ]}
          500).
Proof.
  split; [reflexivity|]. split; [reflexivity|]. split; [discriminate|].
  split; [reflexivity|].
  rewrite (C8_empty_choices_500 no_choices ready default_llama
             (message_body (lit "Hello")) (lit "Hello"));
    [reflexivity | reflexivity | reflexivity | discriminate | reflexivity].
Defined.

(** ** Model loading *)

(** C6, where the code departs from it.  When the model file exists and
    both constructors return, [load_llm_model] returns the handle and
    prints that the KV-cache is enabled, but the handle's [cache] is still
    unset: the only cache-related step is [LlamaCache(llm)], which builds a
    cache object around the handle and drops it; [set_cache] is not
    called. *)
Theorem C6_cache_not_attached (W : World) (cfg : Config) (g : Globals) :
  path_exists W (MODEL_PATH cfg) = true ->
  Llama_raises W (MODEL_PATH cfg) (LLM_N_CTX cfg) (LLM_N_GPU_LAYERS cfg) false = None ->
  LlamaCache_raises W
    (Llama_new (MODEL_PATH cfg) (LLM_N_CTX cfg) (LLM_N_GPU_LAYERS cfg) false) = None ->
  exists h t,
    load_llm_model W cfg g = (mkGlobals (Some h), t, Ok (Some h))
    /\ cache_enabled h = false
    /\ ELlamaCache h ∈ t
    /\ last t = Some (EPrint stdout
                        ([9989%N] ++ lit " Model loaded successfully! KV-Cache is ENABLED.")).
Proof.
  intros Hp Hl Hc.
  pose proof (load_llm_model_cases W cfg g) as Hrun. cbn zeta in Hrun.
  rewrite Hp, Hl, Hc in Hrun.
  eexists _, _. split; [exact Hrun|]. split; [reflexivity|]. split; [|reflexivity].
  set_solver.
Qed.

Lemma C6_cache_not_attached_witness :
  path_exists engine_up (MODEL_PATH defaults) = true /\
  outcome_of (load_llm_model engine_up defaults initial) = Ok (Some default_llama) /\
  cache_enabled default_llama = false.
Proof.
  split; [reflexivity|].
  destruct (C6_cache_not_attached engine_up defaults initial)
    as (h & t & Hrun & Hcache & _); [reflexivity | reflexivity | reflexivity |].
  split; reflexivity.
Defined.

(** C10. If the [Llama] constructor returns but [LlamaCache(llm)] raises,
    [load_llm_model] returns [None] while the global [llm] holds the
    constructed instance.  The handler's availability check then passes: no
    request is answered 503, and a request with a message is sent to that
    instance. *)
Theorem C10_cache_failure_leaves_handle (W : World) (cfg : Config) (g : Globals)
    (e : Exception) :
  path_exists W (MODEL_PATH cfg) = true ->
  Llama_raises W (MODEL_PATH cfg) (LLM_N_CTX cfg) (LLM_N_GPU_LAYERS cfg) false = None ->
  LlamaCache_raises W
    (Llama_new (MODEL_PATH cfg) (LLM_N_CTX cfg) (LLM_N_GPU_LAYERS cfg) false) = Some e ->
  let h := Llama_new (MODEL_PATH cfg) (LLM_N_CTX cfg) (LLM_N_GPU_LAYERS cfg) false in
  let after := globals_of (load_llm_model W cfg g) in
  outcome_of (load_llm_model W cfg g) = Ok None
  /\ llm after = Some h
  /\ (forall request,
        outcome_of (chatbot_api W request after) <>
          Ok (mkResponse
                {[ lit "response" :=
                     PStr (lit "The chatbot model is not available. Check server logs.") ]}
                503))
  /\ (forall d raw,
        d !! lit "message" = Some (PStr raw) ->
        strip raw <> [] ->
        completions (trace_of (chatbot_api W (Parsed (PDict d)) after))
          = [(h, inference_args (build_prompt (strip raw)))]).
Proof.
  intros Hp Hl Hc h after.
  pose proof (load_llm_model_cases W cfg g) as Hrun. cbn zeta in Hrun.
  rewrite Hp, Hl, Hc in Hrun. fold h in Hrun.
  subst after. rewrite Hrun. cbn [outcome_of globals_of fst snd llm].
  split; [reflexivity|]. split; [reflexivity|]. split.
  - intros request Hresp.
    pose proof (chatbot_api_ready_status W h request) as Hst.
    rewrite Hresp in Hst. cbn [status] in Hst. lia.
  - intros d raw Hm Hs.
    rewrite (chatbot_api_inference W (mkGlobals (Some h)) h d raw eq_refl Hm Hs).
    cbn zeta. destruct (generate W h _); reflexivity.
Qed.

Lemma C10_cache_failure_leaves_handle_witness :
  outcome_of (load_llm_model cache_fails defaults initial) = Ok None /\
  llm (globals_of (load_llm_model cache_fails defaults initial)) = Some default_llama.
Proof.
  pose proof (C10_cache_failure_leaves_handle cache_fails defaults initial
                (mkException "MemoryError" []) eq_refl eq_refl eq_refl) as H.
  cbn zeta in H. destruct H as (Hret & Hllm & _).
  split; [exact Hret | exact Hllm].
Defined.

(** ** Trimming *)

Lemma lstrip_nil_iff (s : list N) : lstrip s = [] <-> forallb isspace s = true.
Proof.
  induction s as [|c s IH]; cbn [lstrip forallb]; [tauto|].
  destruct (isspace c); cbn [andb]; [exact IH|]. split; discriminate.
Qed.

Lemma lstrip_head (s : list N) (c : N) (t : list N) :
  lstrip s = c :: t -> isspace c = false.
Proof.
  induction s as [|x s IH]; cbn [lstrip]; [discriminate|].
  destruct (isspace x) eqn:Hx; [exact IH|]. intros [= <- _]. exact Hx.
Qed.

Lemma lstrip_split (s : list N) :
  exists a, s = a ++ lstrip s /\ forallb isspace a = true.
Proof.
  induction s as [|x s (a & Hs & Ha)]; [exists []; split; reflexivity|].
  cbn [lstrip]. destruct (isspace x) eqn:Hx.
  - exists (x :: a). cbn [forallb app]. rewrite Hx, Ha, <- Hs. split; reflexivity.
  - exists []. split; reflexivity.
Qed.

Lemma lstrip_fixed (c : N) (t : list N) : isspace c = false -> lstrip (c :: t) = c :: t.
Proof. intros H. cbn [lstrip]. rewrite H. reflexivity. Qed.

Lemma lstrip_snoc (s : list N) (c : N) :
  isspace c = false -> exists u, lstrip (s ++ [c]) = u ++ [c].
Proof.
  intros Hc. induction s as [|x s (u & Hu)]; cbn [app lstrip].
  - rewrite Hc. exists []. reflexivity.
  - destruct (isspace x); [exists u; exact Hu|]. exists (x :: s). reflexivity.
Qed.

Lemma forallb_reverse (f : N -> bool) (l : list N) : forallb f (rev l) = forallb f l.
Proof.
  induction l as [|x l IH]; [reflexivity|].
  cbn [rev forallb]. rewrite forallb_app, IH. cbn [forallb].
  rewrite andb_true_r. apply andb_comm.
Qed.

(** [strip] removes a run of white space at each end and nothing else; what
    is left is empty or begins and ends with a character that is not white
    space. *)
Lemma strip_decompose (s : list N) :
  exists a b,
    s = a ++ strip s ++ b
    /\ forallb isspace a = true /\ forallb isspace b = true
    /\ (strip s = [] \/
        exists c u c', isspace c = false /\ isspace c' = false
                       /\ (strip s = c :: u) /\ exists v, strip s = v ++ [c']).
Proof.
  destruct (lstrip_split s) as (a & Hs & Ha).
  destruct (lstrip_split (rev (lstrip s))) as (b & Hr & Hb).
  exists a, (rev b). unfold strip, rstrip.
  assert (Hl : lstrip s = rev (lstrip (rev (lstrip s))) ++ rev b).
  { rewrite <- rev_app_distr, <- Hr, rev_involutive. reflexivity. }
  split; [rewrite <- Hl; exact Hs|]. split; [exact Ha|].
  split; [rewrite forallb_reverse; exact Hb|].
  destruct (lstrip s) as [|c t] eqn:El; [left; reflexivity|].
  right. pose proof (lstrip_head s c t El) as Hc.
  cbn [rev]. destruct (lstrip_snoc (rev t) c Hc) as (u & Hu).
  destruct (lstrip (rev t ++ [c])) as [|c' w] eqn:Ew; [destruct u; discriminate Hu|].
  pose proof (lstrip_head _ _ _ Ew) as Hc'.
  exists c, (rev u), c'. split; [exact Hc|]. split; [exact Hc'|]. split.
  - rewrite Hu, rev_app_distr. reflexivity.
  - exists (rev w). reflexivity.
Qed.

Lemma strip_nil_iff (s : list N) : strip s = [] <-> forallb isspace s = true.
Proof.
  destruct (strip_decompose s) as (a & b & Hs & Ha & Hb & Hends). split.
  - intros E. rewrite E in Hs. cbn [app] in Hs. rewrite Hs, forallb_app, Ha, Hb. reflexivity.
  - intros Hall. destruct Hends as [E | (c & u & c' & Hc & _ & E & _)]; [exact E|].
    rewrite Hs, E, !forallb_app in Hall. cbn [forallb] in Hall.
    rewrite Hc in Hall. rewrite Ha in Hall. discriminate Hall.
Qed.

(** A string that is empty, or begins and ends with a character that is
    not white space, is left as it is. *)
Lemma strip_fixed (s : list N) :
  (s = [] \/ exists c u c' v, isspace c = false /\ isspace c' = false
                              /\ s = c :: u /\ s = v ++ [c']) ->
  strip s = s.
Proof.
  intros [-> | (c & u & c' & v & Hc & Hc' & E & E')]; [reflexivity|].
  unfold strip, rstrip. rewrite E at 1. rewrite (lstrip_fixed c u Hc), <- E.
  rewrite E' at 1. rewrite rev_app_distr. cbn [rev app].
  rewrite (lstrip_fixed c' (rev v) Hc').
  change (c' :: rev v) with (rev [c'] ++ rev v).
  rewrite <- rev_app_distr, rev_involutive. symmetry. exact E'.
Qed.

Lemma strip_idempotent (s : list N) : strip (strip s) = strip s.
Proof.
  apply strip_fixed.
  destruct (strip_decompose s) as (_ & _ & _ & _ & _ & [E | (c & u & c' & Hc & Hc' & E & v & E')]).
  - left. exact E.
  - right. exists c, u, c', v. auto.
Qed.

(** ** The paths through the handler *)

Lemma chatbot_api_unavailable (W : World) (request : Request) (g : Globals) :
  llm g = None ->
  chatbot_api W request g =
    (g, [], Ok (mkResponse
                  (jsonify "response"
                     (lit "The chatbot model is not available. Check server logs.")) 503)).
Proof. intros Hl. unfold chatbot_api, bind, read_llm. rewrite Hl. reflexivity. Qed.

(** Every run of [chatbot_api] follows one of the paths of [handled]. *)
Lemma chatbot_api_handled (W : World) (g : Globals) (request : Request) :
  handled W g request (chatbot_api W request g).
Proof.
  destruct g as [[self|]].
  2:{ rewrite (chatbot_api_unavailable W request (mkGlobals None) eq_refl).
      apply handled_unavailable. reflexivity. }
  destruct request as [|document].
  { rewrite chatbot_api_unparsed. eapply handled_unreadable; reflexivity. }
  destruct document as [| | | | | |d];
    try (rewrite chatbot_api_not_an_object by (reflexivity || discriminate);
         eapply handled_not_object; [reflexivity | reflexivity | discriminate]).
  { eapply handled_unreadable; reflexivity. }
  destruct (d !! lit "message") as [v|] eqn:Hm.
  2:{ rewrite chatbot_api_no_message by (left; exact Hm).
      eapply handled_no_message; [reflexivity | exact Hm]. }
  destruct v as [| | | |raw| |];
    try (replace (chatbot_api W (Parsed (PDict d)) (mkGlobals (Some self)))
           with (mkGlobals (Some self), @nil event,
                 @Raise Response (AttributeError (default PNone (d !! lit "message")) "strip"))
           by (unfold chatbot_api, bind, read_llm;
               cbn [llm get_json is_None py_get lift]; rewrite Hm; reflexivity);
         rewrite Hm; eapply handled_not_text; [reflexivity | exact Hm | discriminate]).
  destruct (strip raw) as [|c s] eqn:Hs.
  { rewrite chatbot_api_no_message by (right; eauto).
    eapply handled_blank; [reflexivity | exact Hm | exact Hs]. }
  assert (Hne : strip raw <> []) by (rewrite Hs; discriminate).
  rewrite (chatbot_api_inference W (mkGlobals (Some self)) self d raw eq_refl Hm Hne).
  cbn zeta. destruct (generate W self (build_prompt (strip raw))) as [text|e] eqn:Hg.
  - eapply handled_answer; [reflexivity | exact Hm | exact Hne | exact Hg].
  - eapply handled_failure; [reflexivity | exact Hm | exact Hne | exact Hg].
Qed.

(** The text [extract_text] returns, and when. *)
Lemma extract_text_ok_iff (output : pyval) (text : list N) :
  extract_text output = Ok text <->
  exists o c,
    output = PDict o
    /\ (o !! lit "choices" = None /\ c = ∅
        \/ exists rest, o !! lit "choices" = Some (PList (PDict c :: rest)))
    /\ (c !! lit "text" = None /\ text = []
        \/ exists t, c !! lit "text" = Some (PStr t) /\ text = strip t).
Proof.
  split.
  - destruct output as [| | | | | |o]; try discriminate.
    unfold extract_text. cbn [py_get].
    destruct (o !! lit "choices") as [choices|] eqn:Hc.
    + destruct choices as [| | | |s|l|]; try discriminate.
      { destruct s; discriminate. }
      destruct l as [|choice rest]; [discriminate|]. cbn [py_item0].
      destruct choice as [| | | | | |c]; try discriminate. cbn [py_get].
      intros H. exists o, c. split; [reflexivity|]. split; [right; eauto|].
      destruct (c !! lit "text") as [v|].
      * destruct v as [| | | |t| |]; try discriminate.
        injection H as <-. right. eauto.
      * injection H as <-. left. split; reflexivity.
    + cbn [py_item0 py_get]. rewrite lookup_empty. cbn [py_strip].
      intros [= <-]. exists o, ∅. split; [reflexivity|].
      split; [left; split; [exact Hc | reflexivity]|].
      left. split; [apply lookup_empty | reflexivity].
  - intros (o & c & -> & Hchoices & Htext). unfold extract_text. cbn [py_get].
    destruct Hchoices as [[Hc ->] | (rest & Hc)]; rewrite Hc; cbn [py_item0 py_get].
    + rewrite lookup_empty in *. destruct Htext as [[_ ->] | (t & Ht & _)]; [reflexivity | discriminate].
    + destruct Htext as [[Ht ->] | (t & Ht & ->)]; rewrite Ht; reflexivity.
Qed.

Lemma extract_text_trimmed (output : pyval) (text : list N) :
  extract_text output = Ok text -> strip text = text.
Proof.
  intros H. apply extract_text_ok_iff in H as (o & c & _ & _ & [[_ ->] | (t & _ & ->)]).
  - reflexivity.
  - apply strip_idempotent.
Qed.

Lemma generate_trimmed (W : World) (self : Llama) (p text : list N) :
  generate W self p = Ok text -> strip text = text.
Proof.
  unfold generate. destruct (completion W self (inference_args p)); [|discriminate].
  apply extract_text_trimmed.
Qed.


(** ** More on the request handler *)

(** X1. The handler never assigns the global [llm]: whatever the request
    and its outcome (a response or an escaping exception), the globals after
    the call are the globals before it. *)
Theorem X1_handler_keeps_globals (W : World) (request : Request) (g : Globals) :
  globals_of (chatbot_api W request g) = g.
Proof.
  destruct (chatbot_api_handled W g request); reflexivity.
Qed.


(** X3. With the model loaded and a JSON object whose [message] is a
    string, the handler answers 400 "No message provided" exactly when
    every character of the message is white space (which includes the empty
    message). *)
Theorem X3_blank_message_iff (W : World) (g : Globals) (self : Llama)
    (d : gmap (list N) pyval) (raw : list N) :
  llm g = Some self ->
  d !! lit "message" = Some (PStr raw) ->
  outcome_of (chatbot_api W (Parsed (PDict d)) g)
    = Ok (mkResponse {[ lit "error" := PStr (lit "No message provided") ]} 400)
  <-> forallb isspace raw = true.
Proof.
  intros Hl Hm. rewrite <- strip_nil_iff. split.
  - intros H. destruct (strip raw) as [|c s] eqn:Hs; [reflexivity|]. exfalso.
    rewrite (chatbot_api_inference W g self d raw Hl Hm) in H by (rewrite Hs; discriminate).
    cbn zeta in H.
    destruct (generate W self _); cbn [outcome_of snd] in H;
      apply (f_equal (fun r => match r with Ok x => status x | Raise _ => 0 end)) in H;
      discriminate H.
  - intros Hs. destruct g as [l]. cbn [llm] in Hl. subst l.
    rewrite chatbot_api_no_message by (right; eauto). reflexivity.
Qed.

Lemma X3_blank_message_iff_witness :
  llm ready = Some default_llama
  /\ message_body [32%N; 9%N; 160%N; 8195%N] !! lit "message"
       = Some (PStr [32%N; 9%N; 160%N; 8195%N])
  /\ outcome_of (chatbot_api engine_up (Parsed (PDict (message_body [32%N; 9%N; 160%N; 8195%N]))) ready)
       = Ok (mkResponse {[ lit "error" := PStr (lit "No message provided") ]} 400).
Proof.
  split; [reflexivity|]. split; [reflexivity|].
  apply (X3_blank_message_iff engine_up ready default_llama
           (message_body [32%N; 9%N; 160%N; 8195%N]) [32%N; 9%N; 160%N; 8195%N]);
    reflexivity.
Defined.



(** X5. With the model loaded, a JSON object whose [message] is present
    but is not a string (a number, [null], a list, ...) is not answered with
    a 400: [.strip()] raises [AttributeError] before the [try] block, and the
    exception leaves the handler with nothing printed and no engine call. *)
Theorem X5_message_not_a_string (W : World) (g : Globals) (self : Llama)
    (d : gmap (list N) pyval) (v : pyval) :
  llm g = Some self ->
  d !! lit "message" = Some v ->
  (forall s, v <> PStr s) ->
  chatbot_api W (Parsed (PDict d)) g =
    (g, [],
     Raise (mkException "AttributeError"
              (lit "'" ++ type_name v ++ lit "' object has no attribute 'strip'"))).
Proof.
  intros Hl Hm Hv. unfold chatbot_api, bind, read_llm. rewrite Hl.
  cbn [get_json is_None py_get lift]. rewrite Hm.
  destruct v; try reflexivity. exfalso. eapply Hv. reflexivity.
Qed.

Lemma X5_message_not_a_string_witness :
  llm ready = Some default_llama
  /\ ({[ lit "message" := PInt 123 ]} : gmap (list N) pyval) !! lit "message" = Some (PInt 123)
  /\ chatbot_api engine_up (Parsed (PDict {[ lit "message" := PInt 123 ]})) ready =
       (ready, [],
        Raise (mkException "AttributeError" (lit "'int' object has no attribute 'strip'"))).
Proof.
  split; [reflexivity|]. split; [reflexivity|].
  apply (X5_message_not_a_string engine_up ready default_llama _ (PInt 123));
    [reflexivity | reflexivity | discriminate].
Defined.



(** X7. The user turn of the prompt sent to the engine is the message
    with the white space at its two ends removed and nothing else changed:
    the message is [a ++ m ++ b] with [a] and [b] white space, [m] begins and
    ends with a character that is not white space, and the engine is called
    once, with the prompt built from [m]. *)
Theorem X7_prompt_carries_trimmed_message (W : World) (g : Globals) (self : Llama)
    (d : gmap (list N) pyval) (raw : list N) :
  llm g = Some self ->
  d !! lit "message" = Some (PStr raw) ->
  strip raw <> [] ->
  exists a m b,
    raw = a ++ m ++ b
    /\ forallb isspace a = true /\ forallb isspace b = true
    /\ (exists c u c' v, isspace c = false /\ isspace c' = false
                         /\ m = c :: u /\ m = v ++ [c'])
    /\ completions (trace_of (chatbot_api W (Parsed (PDict d)) g))
         = [(self, inference_args (build_prompt m))].
Proof.
  intros Hl Hm Hs.
  destruct (strip_decompose raw) as (a & b & Hraw & Ha & Hb & [E | (c & u & c' & Hc & Hc' & E & v & E')]);
    [contradiction|].
  exists a, (strip raw), b. split; [exact Hraw|]. split; [exact Ha|]. split; [exact Hb|].
  split; [exists c, u, c', v; auto|].
  rewrite (chatbot_api_inference W g self d raw Hl Hm Hs). cbn zeta.
  destruct (generate W self _); reflexivity.
Qed.

Lemma X7_prompt_carries_trimmed_message_witness :
  llm ready = Some default_llama
  /\ message_body (nl ++ lit " Hi there ") !! lit "message" = Some (PStr (nl ++ lit " Hi there "))
  /\ strip (nl ++ lit " Hi there ") <> []
  /\ completions (trace_of (chatbot_api engine_up
                              (Parsed (PDict (message_body (nl ++ lit " Hi there ")))) ready))
       = [(default_llama, inference_args (build_prompt (lit "Hi there")))].
Proof.
  split; [reflexivity|]. split; [reflexivity|]. split; [discriminate|].
  destruct (X7_prompt_carries_trimmed_message engine_up ready default_llama
              (message_body (nl ++ lit " Hi there ")) (nl ++ lit " Hi there "))
    as (a & m & b & _ & _ & _ & _ & _); [reflexivity | reflexivity | discriminate |].
  reflexivity.
Defined.

(** X8. The text of every 200 response is trimmed: it is a string that
    [strip] leaves unchanged, so it neither begins nor ends with white
    space. *)
Theorem X8_answer_is_trimmed (W : World) (request : Request) (g : Globals) (r : Response) :
  outcome_of (chatbot_api W request g) = Ok r ->
  status r = 200 ->
  exists text, json r = {[ lit "response" := PStr text ]} /\ strip text = text.
Proof.
  destruct (chatbot_api_handled W g request) as
    [request Hl | self request Hl Hj | self document Hl Hn Hd | self d Hl Hm
    | self d v Hl Hm Hv | self d raw Hl Hm Hs | self d raw text Hl Hm Hs Hg
    | self d raw e Hl Hm Hs Hg];
    cbn [outcome_of snd]; intros [= <-]; cbn [status json]; try discriminate.
  intros _. exists text. split; [reflexivity|].
  exact (generate_trimmed W self _ text Hg).
Qed.

Lemma X8_answer_is_trimmed_witness :
  outcome_of (chatbot_api engine_up (Parsed (PDict (message_body (lit "Hello")))) ready)
    = Ok (mkResponse {[ lit "response" := PStr (lit "4") ]} 200)
  /\ exists text,
       json (mkResponse {[ lit "response" := PStr (lit "4") ]} 200)
         = {[ lit "response" := PStr text ]}
       /\ strip text = text.
Proof.
  split; [reflexivity|].
  exact (X8_answer_is_trimmed engine_up (Parsed (PDict (message_body (lit "Hello")))) ready
           (mkResponse {[ lit "response" := PStr (lit "4") ]} 200) eq_refl eq_refl).
Defined.


(** X19. The handler calls the engine at most once per request, and it
    calls it exactly when the model is loaded, the body is a JSON object and
    its [message] is a string that is not blank. *)
Theorem X19_engine_called_iff (W : World) (request : Request) (g : Globals) :
  (length (completions (trace_of (chatbot_api W request g))) <= 1)%nat
  /\ (completions (trace_of (chatbot_api W request g)) <> []
      <-> exists self d raw,
            llm g = Some self /\ request = Parsed (PDict d)
            /\ d !! lit "message" = Some (PStr raw) /\ strip raw <> []).
Proof.
  split.
  - destruct (chatbot_api_handled W g request); cbn; lia.
  - split; [apply inference_reached_only_if|].
    intros (self & d & raw & Hl & -> & Hm & Hs).
    rewrite (chatbot_api_inference W g self d raw Hl Hm Hs). cbn zeta.
    destruct (generate W self _); discriminate.
Qed.

(** ** Decimal text of integers *)

Lemma lit_cons (a : ascii) (s : string) : lit (String a s) = N_of_ascii a :: lit s.
Proof. reflexivity. Qed.

Lemma digits_after_digit (d : Decimal.uint) (acc : N) :
  digits (Z.of_N acc) true (lit (NilEmpty.string_of_uint d))
    = Some (Z.of_N (decimal_value acc d)).
Proof.
  revert acc. induction d; intros acc; cbn [NilEmpty.string_of_uint decimal_value];
    [reflexivity | ..];
    rewrite lit_cons; cbn [digits N_of_ascii N_of_digits N.leb N.compare Pos.compare
                            Pos.compare_cont andb N.add N.mul];
    rewrite <- IHd; f_equal; lia.
Qed.

Lemma digits_of_uint (d : Decimal.uint) :
  d <> Decimal.Nil ->
  digits 0 false (lit (NilEmpty.string_of_uint d)) = Some (Z.of_N (decimal_value 0 d)).
Proof.
  destruct d; [congruence | ..]; intros _;
    cbn [NilEmpty.string_of_uint decimal_value]; rewrite lit_cons;
    cbn [digits N_of_ascii N_of_digits N.leb N.compare Pos.compare
         Pos.compare_cont andb N.add N.mul];
    rewrite <- digits_after_digit; reflexivity.
Qed.

Lemma of_uint_acc_value (d : Decimal.uint) (acc : positive) :
  Npos (Pos.of_uint_acc d acc) = decimal_value (Npos acc) d.
Proof.
  revert acc. induction d; intros acc; cbn [Pos.of_uint_acc decimal_value];
    [reflexivity | ..]; rewrite IHd; f_equal; lia.
Qed.

Lemma of_uint_value (d : Decimal.uint) : Pos.of_uint d = decimal_value 0 d.
Proof.
  induction d; cbn [Pos.of_uint decimal_value]; [reflexivity | exact IHd | ..];
    apply of_uint_acc_value.
Qed.

Lemma lstrip_unchanged (s : list N) :
  (forall c, In c s -> isspace c = false) -> lstrip s = s.
Proof.
  destruct s as [|c s]; [reflexivity|]. intros H. apply lstrip_fixed. apply H. left. reflexivity.
Qed.

(** Text without white space is left as it is. *)
Lemma strip_unchanged (s : list N) :
  (forall c, In c s -> isspace c = false) -> strip s = s.
Proof.
  intros H. unfold strip, rstrip. rewrite (lstrip_unchanged s H).
  rewrite lstrip_unchanged; [apply rev_involutive|].
  intros c Hc. apply H. apply in_rev. exact Hc.
Qed.

Lemma uint_text_no_space (d : Decimal.uint) (c : N) :
  In c (lit (NilEmpty.string_of_uint d)) -> isspace c = false.
Proof.
  induction d; cbn [NilEmpty.string_of_uint]; [intros [] | ..];
    rewrite lit_cons; intros [<- | H]; try reflexivity; apply IHd; exact H.
Qed.

Lemma NilZero_text_no_space (d : Decimal.uint) (c : N) :
  In c (lit (NilZero.string_of_uint d)) -> isspace c = false.
Proof.
  destruct d; try apply uint_text_no_space. intros [<- | []]. reflexivity.
Qed.

Lemma digits_of_text (d : Decimal.uint) :
  digits 0 false (lit (NilZero.string_of_uint d)) = Some (Z.of_N (Pos.of_uint d)).
Proof.
  rewrite of_uint_value. destruct d eqn:E; [reflexivity | ..];
    rewrite <- E; rewrite <- (digits_of_uint d) by (rewrite E; discriminate);
    rewrite E; reflexivity.
Qed.

(** On text without white space that does not begin with a sign, [int]
    reads the digits. *)
Lemma ascii_int_unsigned (s : list N) :
  (forall c, In c s -> isspace c = false) ->
  hd 0%N s <> 43%N -> hd 0%N s <> 45%N ->
  ascii_int s = digits 0 false s.
Proof.
  intros Hs. unfold ascii_int. rewrite (strip_unchanged s Hs).
  destruct s as [|c t]; [reflexivity|]. cbn [hd]. intros H43 H45.
  destruct c as [|p]; [reflexivity|].
  do 6 (destruct p as [p|p|]; try reflexivity); congruence.
Qed.

(** [int(str(n)) == n], for every integer [n]. *)
Lemma ascii_int_str_of_int (z : Z) : ascii_int (str_of_int z) = Some z.
Proof.
  unfold str_of_int. rewrite <- (DecimalZ.of_to z) at 2.
  destruct (Z.to_int z) as [d|d]; cbn [NilZero.string_of_int Z.of_int]; unfold Z.of_uint.
  - rewrite ascii_int_unsigned.
    + apply digits_of_text.
    + apply NilZero_text_no_space.
    + destruct d; discriminate.
    + destruct d; discriminate.
  - rewrite lit_cons. change (N_of_ascii "-") with 45%N.
    unfold ascii_int. rewrite strip_unchanged.
    + rewrite digits_of_text. reflexivity.
    + intros c [<- | H]; [reflexivity | exact (NilZero_text_no_space d c H)].
Qed.

(** ** More on model loading and on the import *)

(** X10. The calls [load_llm_model] makes into llama_cpp: none when the
    model file is missing; the [Llama] constructor alone, with the
    configured path, context size and GPU layers and [verbose=False], when
    it raises; the constructor and then [LlamaCache] on the new instance
    otherwise.  It never runs a completion. *)
Theorem X10_load_library_calls (W : World) (cfg : Config) (g : Globals) :
  constructor_calls (trace_of (load_llm_model W cfg g)) =
    (if path_exists W (MODEL_PATH cfg) then
       match Llama_raises W (MODEL_PATH cfg) (LLM_N_CTX cfg) (LLM_N_GPU_LAYERS cfg) false with
       | Some _ => [ELlama (MODEL_PATH cfg) (LLM_N_CTX cfg) (LLM_N_GPU_LAYERS cfg) false]
       | None =>
           [ELlama (MODEL_PATH cfg) (LLM_N_CTX cfg) (LLM_N_GPU_LAYERS cfg) false;
            ELlamaCache (Llama_new (MODEL_PATH cfg) (LLM_N_CTX cfg) (LLM_N_GPU_LAYERS cfg) false)]
       end
     else [])
  /\ completions (trace_of (load_llm_model W cfg g)) = [].
Proof.
  rewrite load_llm_model_cases. cbn zeta.
  destruct (path_exists W (MODEL_PATH cfg)); [|split; reflexivity].
  destruct (Llama_raises W _ _ _ _); [split; reflexivity|].
  destruct (LlamaCache_raises W _); split; reflexivity.
Qed.


(** X12. The global [llm] after [load_llm_model]: it is left as it was when
    the model file is missing or the [Llama] constructor raises, and it is
    the new instance when the constructor returns, whether or not
    [LlamaCache] then raises.  So a handle is present afterwards exactly
    when one was present before or the file exists and the constructor
    returned; a loaded handle is never dropped. *)
Theorem X12_global_after_load (W : World) (cfg : Config) (g : Globals) :
  llm (globals_of (load_llm_model W cfg g)) =
    (if path_exists W (MODEL_PATH cfg) then
       match Llama_raises W (MODEL_PATH cfg) (LLM_N_CTX cfg) (LLM_N_GPU_LAYERS cfg) false with
       | Some _ => llm g
       | None => Some (Llama_new (MODEL_PATH cfg) (LLM_N_CTX cfg) (LLM_N_GPU_LAYERS cfg) false)
       end
     else llm g)
  /\ (is_Some (llm (globals_of (load_llm_model W cfg g)))
      <-> is_Some (llm g)
          \/ (path_exists W (MODEL_PATH cfg) = true
              /\ Llama_raises W (MODEL_PATH cfg) (LLM_N_CTX cfg) (LLM_N_GPU_LAYERS cfg) false
                 = None)).
Proof.
  rewrite load_llm_model_cases. cbn zeta.
  destruct (path_exists W (MODEL_PATH cfg)).
  - destruct (Llama_raises W _ _ _ _) as [e|].
    + cbn [globals_of fst]. split; [reflexivity|]. split; [auto|].
      intros [H | [_ H]]; [exact H | discriminate H].
    + destruct (LlamaCache_raises W _); cbn [globals_of fst llm];
        (split; [reflexivity|]); split; eauto.
  - cbn [globals_of fst]. split; [reflexivity|]. split; [auto|].
    intros [H | [H _]]; [exact H | discriminate H].
Qed.





(** ** More on the configuration *)

(** X14. A variable that is set wins over its default.  When the module
    loads, the model path is the text of [LLM_MODEL_PATH] taken as it is (an
    empty value included) or the default when unset, and each integer
    setting whose variable is set is what [int] makes of the variable's
    text. *)
Theorem X14_settings_from_environment (int_of_str : list N -> option Z)
    (environ : gmap (list N) (list N)) (cfg : Config) :
  load_config int_of_str environ = inr cfg ->
  MODEL_PATH cfg = default (lit "llama-2-7b-chat.Q4_K_M.gguf") (environ !! lit "LLM_MODEL_PATH")
  /\ (forall text, environ !! lit "HOST_PORT" = Some text ->
                   int_of_str text = Some (HOST_PORT cfg))
  /\ (forall text, environ !! lit "LLM_N_CTX" = Some text ->
                   int_of_str text = Some (LLM_N_CTX cfg))
  /\ (forall text, environ !! lit "LLM_N_GPU_LAYERS" = Some text ->
                   int_of_str text = Some (LLM_N_GPU_LAYERS cfg)).
Proof.
  unfold load_config, environ_get, py_int. intros H.
  destruct (environ !! lit "LLM_MODEL_PATH") as [m|];
    destruct (environ !! lit "HOST_PORT") as [p|];
    destruct (environ !! lit "LLM_N_CTX") as [c|];
    destruct (environ !! lit "LLM_N_GPU_LAYERS") as [l|];
    repeat match type of H with
           | context [match int_of_str ?s with _ => _ end] =>
               destruct (int_of_str s) eqn:?; [|discriminate H]
           end;
    injection H as <-; cbn [MODEL_PATH HOST_PORT LLM_N_CTX LLM_N_GPU_LAYERS default];
    repeat split; intros text [= <-] || intros text [=]; assumption.
Qed.

Lemma X14_settings_from_environment_witness :
  load_config ascii_int
    (<[ lit "LLM_MODEL_PATH" := [] ]> {[ lit "HOST_PORT" := lit " 80_80 " ++ nl ]})
    = inr (mkConfig [] 8080 4096 0)
  /\ ascii_int (lit " 80_80 " ++ nl) = Some 8080.
Proof.
  assert (Hload : load_config ascii_int
            (<[ lit "LLM_MODEL_PATH" := [] ]> {[ lit "HOST_PORT" := lit " 80_80 " ++ nl ]})
            = inr (mkConfig [] 8080 4096 0)) by reflexivity.
  split; [exact Hload|].
  destruct (X14_settings_from_environment ascii_int _ _ Hload) as (_ & Hport & _).
  exact (Hport (lit " 80_80 " ++ nl) eq_refl).
Defined.

(** X15. The import fails with the [ValueError] of the first integer
    variable, in the order [HOST_PORT], [LLM_N_CTX], [LLM_N_GPU_LAYERS], whose
    text [int] rejects: the error carries that variable's text, and the
    later variables are not looked at. *)
Theorem X15_first_bad_integer_is_reported (int_of_str : list N -> option Z)
    (environ : gmap (list N) (list N)) (bad : list N) :
  load_config int_of_str environ = inl (invalid_literal bad)
  <-> int_of_str bad = None
      /\ (environ !! lit "HOST_PORT" = Some bad
          \/ (forall t, environ !! lit "HOST_PORT" = Some t -> is_Some (int_of_str t))
             /\ (environ !! lit "LLM_N_CTX" = Some bad
                 \/ (forall t, environ !! lit "LLM_N_CTX" = Some t -> is_Some (int_of_str t))
                    /\ environ !! lit "LLM_N_GPU_LAYERS" = Some bad)).
Proof.
  unfold load_config, environ_get, py_int.
  destruct (environ !! lit "HOST_PORT") as [p|];
    [destruct (int_of_str p) eqn:Ep|];
    (destruct (environ !! lit "LLM_N_CTX") as [c|];
     [destruct (int_of_str c) eqn:Ec|]);
    (destruct (environ !! lit "LLM_N_GPU_LAYERS") as [l|];
     [destruct (int_of_str l) eqn:El|]);
    (split;
     [ intros [= <-]; naive_solver
     | intros (Hbad & Hwhere);
       repeat match goal with
              | H : _ \/ _ |- _ => destruct H
              | H : _ /\ _ |- _ => destruct H
              | H : Some _ = Some _ |- _ => injection H as ->
              | H : forall t, Some ?x = Some t -> is_Some _ |- _ =>
                  destruct (H x eq_refl); clear H
              end; try discriminate; try congruence ]).
Qed.


(** X17. Run as a script, the program announces on [stdout] the port it
    then passes to [app.run]: the number in the announcement reads back,
    with [int], as [HOST_PORT]; the server is started with [debug=True] on
    host [0.0.0.0], and the globals are not touched. *)
Theorem X17_main_announces_its_port (cfg : Config) (g : Globals) :
  exists text,
    main cfg g =
      (g,
       [EPrint stdout (lit "Starting Flask server on port " ++ text ++ lit "...")],
       Ok (mkRunArgs true (HOST_PORT cfg) (lit "0.0.0.0")))
    /\ ascii_int text = Some (HOST_PORT cfg).
Proof.
  exists (str_of_int (HOST_PORT cfg)). split; [reflexivity | apply ascii_int_str_of_int].
Qed.

(** ** More on the prompt *)

(** X18. The prompt determines the message: two messages with the same
    prompt are equal.  The template adds a fixed number of characters, 216,
    to the message; nothing is cut off. *)
Theorem X18_prompt_injective (m1 m2 : list N) :
  (build_prompt m1 = build_prompt m2 -> m1 = m2)
  /\ length (build_prompt m1) = (216 + length m1)%nat.
Proof.
  split.
  - unfold build_prompt. intros H.
    apply List.app_inv_head in H. apply List.app_inv_head in H.
    apply List.app_inv_tail in H.
    apply List.app_inv_head in H. apply List.app_inv_head in H.
    apply List.app_inv_tail in H. exact H.
  - unfold build_prompt. rewrite !length_app. cbn. lia.
Qed.

Lemma X18_prompt_injective_witness :
  build_prompt (lit "Hi") = build_prompt (lit "Hi") /\ lit "Hi" = lit "Hi"
  /\ length (build_prompt (lit "Hi")) = 218%nat.
Proof.
  split; [reflexivity|].
  destruct (X18_prompt_injective (lit "Hi") (lit "Hi")) as [Hinj Hlen].
  split; [exact (Hinj eq_refl) | exact Hlen].
Defined.
